(** * The prompt gateway of the Edith coding mentor (src/main.py)

    The service forwards coding questions, code snippets and answers to a
    generative-language provider and relays the text that comes back.  This
    file embeds the request classes, the helper [get_gemini_response] and the
    four handlers, and proves the properties the specification states about
    them.

    Conventions of the embedding.
    - A Python [str] is a [string]: the sequence of the bytes of its UTF-8
      encoding.  Concatenation and emptiness are the same on both sides.
    - An optional argument ([code_snippet=None]) is an [option string].
    - The provider is outside the repository.  It is an interface ([GenAI])
      with a state of its own, so that it may answer the same prompt
      differently from one call to the next, and may raise.
    - A handler is a function of the [world]: the provider's state and the
      log of the calls made to it so far.  The handlers are [async def]
      without any [await], so each one runs to its end before another starts;
      passing the world through one handler at a time loses nothing. *)

From Stdlib Require Import String Ascii List.
Import ListNotations.

Local Open Scope list_scope.
Local Open Scope string_scope.

(** ** Python values *)

(** The line feed, written [\n] in the source. *)
Definition LF : string := String "010"%char EmptyString.

(** The two code points U+FE0F U+20E3 that follow a digit in a keycap emoji
    of the prompts, as UTF-8 bytes. *)
Definition keycap : string :=
  String "239"%char (String "184"%char (String "143"%char
  (String "226"%char (String "131"%char (String "163"%char EmptyString))))).

(** [bool(s)] of a [str]: empty strings are false. *)
Definition str_truth (s : string) : bool :=
  match s with
  | EmptyString => false
  | String _ _ => true
  end.

(** [bool(x)] of an argument that is [None] or a [str]. *)
Definition truth (x : option string) : bool :=
  match x with
  | None => false
  | Some s => str_truth s
  end.

(** [l.append(x)] *)
Definition append_item {A : Type} (l : list A) (x : A) : list A :=
  (l ++ [x])%list.

(** A JSON object with string values, in the order its keys were written. *)
Definition dict : Type := list (string * string).

(** What running a piece of Python ends in. *)
Inductive outcome (E A : Type) : Type :=
| Returns (a : A)
| Raises (e : E).
Arguments Returns {E A} a.
Arguments Raises {E A} e.

(** ** Request models (lines 27-40) *)

Record ApproachRequest : Type := {
  problem_statement : string;
  code_input : string
}.

Record DoubtRequest : Type := {
  doubt_question : string;
  problem_context : string
}.

Record GeneralCodingQuestion : Type := {
  question : string
}.

Module Score.
Record ScoreRequest : Type := {
  question : string;
  answer : string
}.
End Score.

(** ** The provider *)

(** [google.generativeai] as the gateway uses it: [generate_content] of a model
    named [name] on a list of segments, from a provider state, and the [text]
    property of what it returned.  Both may raise. *)
Class GenAI : Type := {
  error : Type;
  remote : Type;
  response : Type;
  generate_content :
    string -> list string -> remote -> outcome error response * remote;
  text : response -> outcome error string
}.

Section Gateway.
Context {G : GenAI}.

(** The provider and the calls that reached it, oldest first: the name of
    the model and the segments. *)
Record world : Type := {
  service : remote;
  calls : list (string * list string)
}.

Definition M (A : Type) : Type := world -> outcome error A * world.

Definition ret {A : Type} (a : A) : M A := fun w => (Returns a, w).

Definition bind {A B : Type} (m : M A) (k : A -> M B) : M B :=
  fun w =>
    match m w with
    | (Returns a, w') => k a w'
    | (Raises e, w') => (Raises e, w')
    end.

(** A computation that touches no state. *)
Definition lift {A : Type} (r : outcome error A) : M A := fun w => (r, w).

(** [genai.GenerativeModel(name)] *)
Record model : Type := { model_name : string }.

Definition GenerativeModel (name : string) : model :=
  {| model_name := name |}.

(** [model.generate_content(contents)]: one call to the provider. *)
Definition model_generate_content (m : model) (contents : list string)
  : M response :=
  fun w =>
    let (r, s) := generate_content (model_name m) contents (service w) in
    (r, {| service := s;
           calls := append_item (calls w) (model_name m, contents) |}).

End Gateway.

Arguments world G : clear implicits.
Arguments M G A : clear implicits.

Notation "x <- m ;; k" := (bind m (fun x => k))
  (at level 61, m at next level, right associativity).

(** ** Prompt assembly (lines 47-52) *)

(** The value of the local [input_data] of [get_gemini_response] when the
    provider is called.  [if user_question:] is the truth value of the
    argument, so [None] and the empty string both skip the segment. *)
Definition input_data (prompt : string) (code_snippet user_question : option string)
  : list string :=
  let input_data : list string := [] in
  let input_data :=
    match user_question with
    | Some q =>
        if str_truth q
        then append_item input_data ("Problem/Question: " ++ q)
        else input_data
    | None => input_data
    end in
  let input_data :=
    match code_snippet with
    | Some c =>
        if str_truth c
        then append_item input_data ("User Code: " ++ c)
        else input_data
    | None => input_data
    end in
  append_item input_data ("Prompt: " ++ prompt).

(** ** The fixed instructions of the four operations *)

(** Lines 64-70. *)
Definition prompt_approach : string :=
  "You are an expert coding mentor named Edith. The user has provided a coding problem and a code snippet. "
  ++ "Analyze the code and provide a **concise and professional** response covering three key areas:" ++ LF ++ LF
  ++ "1" ++ keycap ++ " **How the user can proceed next** based on the current implementation." ++ LF
  ++ "2" ++ keycap ++ " **Identify errors (if any)**, mentioning **specific line numbers** and explaining incorrect logic." ++ LF
  ++ "3" ++ keycap ++ " **Give the correct approach** (without providing direct code), focusing on best practices and improvements.".

(** Lines 86-90. *)
Definition prompt_doubt : string :=
  "You are a knowledgeable technical mentor named Edith. "
  ++ "Answer the user's question and clarify any doubts regarding the problem statement. "
  ++ "Provide a **precise yet detailed explanation**, ensuring conceptual clarity.".

(** Lines 106-113: one triple-quoted literal, its line breaks and the
    indentation of its continuation lines included. *)
Definition prompt_edit : string :=
  "You are Edith, an AI coding mentor who helps users **think** about problems instead of just providing answers. " ++ LF
  ++ "        For the given coding question, explain **how the user should approach it**, including:" ++ LF
  ++ "        1" ++ keycap ++ " **Breaking down the problem logically**  " ++ LF
  ++ "        2" ++ keycap ++ " **Identifying key concepts involved**  " ++ LF
  ++ "        3" ++ keycap ++ " **Steps to derive a solution independently**  " ++ LF
  ++ "        Encourage problem-solving without giving direct solutions.".

(** Lines 128-134: the f-strings put the two fields in as they are. *)
Definition prompt_score (request : Score.ScoreRequest) : string :=
  "You are an expert evaluator. Evaluate the following answer to the given question on a scale of 0 to 10, "
  ++ "where 0 means completely incorrect and 10 means completely correct." ++ LF ++ LF
  ++ "Question: " ++ Score.question request ++ LF
  ++ "Answer: " ++ Score.answer request ++ LF ++ LF
  ++ "Please respond only with the numeric score.".

(** Line 92. *)
Definition combined_question (request : DoubtRequest) : string :=
  (doubt_question request ++ (LF ++ "Context: ")) ++ problem_context request.

(** ** The helper and the handlers *)

(** A request as the router hands it over: the operation and its body. *)
Inductive request : Type :=
| PostAnalyze (body : ApproachRequest)
| PostSolveDoubt (body : DoubtRequest)
| PostEdit (body : GeneralCodingQuestion)
| PostGiveScore (body : Score.ScoreRequest).

(** The paths of the [@app.post] decorators. *)
Definition path (r : request) : string :=
  match r with
  | PostAnalyze _ => "/analyze"
  | PostSolveDoubt _ => "/solve_doubt"
  | PostEdit _ => "/edit"
  | PostGiveScore _ => "/givescore"
  end.

Section Handlers.
Context {G : GenAI}.

(** Lines 42-56. *)
Definition get_gemini_response
  (prompt : string) (code_snippet user_question : option string) : M G string :=
  let input_data := input_data prompt code_snippet user_question in
  let model := GenerativeModel "gemini-1.5-flash" in
  response <- model_generate_content model input_data ;;
  lift (text response).

(** Lines 58-78. *)
Definition analyze_code (request : ApproachRequest) : M G dict :=
  response <- get_gemini_response prompt_approach
                (Some (code_input request))
                (Some (problem_statement request)) ;;
  ret [("response", response)].

(** Lines 80-98. *)
Definition solve_doubt (request : DoubtRequest) : M G dict :=
  let combined_question := combined_question request in
  response <- get_gemini_response prompt_doubt None (Some combined_question) ;;
  ret [("response", response)].

(** Lines 100-120. *)
Definition edit_code_thinking (request : GeneralCodingQuestion) : M G dict :=
  response <- get_gemini_response prompt_edit None (Some (question request)) ;;
  ret [("response", response)].

(** Lines 122-137. *)
Definition give_score (request : Score.ScoreRequest) : M G dict :=
  let prompt_score := prompt_score request in
  score_response <- get_gemini_response prompt_score None None ;;
  ret [("score", score_response)].

(** The application: each path to its handler. *)
Definition handle (r : request) : M G dict :=
  match r with
  | PostAnalyze body => analyze_code body
  | PostSolveDoubt body => solve_doubt body
  | PostEdit body => edit_code_thinking body
  | PostGiveScore body => give_score body
  end.

(** *** What a run shows from outside *)

(** The calls made to the provider while [r] was handled from [w]. *)
Definition outbound (r : request) (w : world G) : list (string * list string) :=
  skipn (length (calls w)) (calls (snd (handle r w))).

(** The segment lists of those calls. *)
Definition prompts (r : request) (w : world G) : list (list string) :=
  map snd (outbound r w).

(** What the provider makes of [segments] from [w]: the text of its
    response, or the error of the call or of reading the text. *)
Definition provider_answer (segments : list string) (w : world G)
  : outcome error string :=
  match fst (generate_content "gemini-1.5-flash" segments (service w)) with
  | Returns resp => text resp
  | Raises e => Raises e
  end.

End Handlers.

(** ** Vocabulary of the properties *)

(** [seg] carries the label [label]: it starts with it. *)
Definition labeled (label seg : string) : bool := prefix label seg.

(** [s] occurs in [t]. *)
Definition Substring (s t : string) : Prop :=
  exists pre post : string, t = pre ++ s ++ post.

(** [x] comes before [y] in [l]. *)
Definition Before {A : Type} (x y : A) (l : list A) : Prop :=
  exists l1 l2 l3 : list A, l = (l1 ++ x :: l2 ++ y :: l3)%list.

(** The three kinds of segment. *)
Definition question_segment (q : string) : string := "Problem/Question: " ++ q.
Definition code_segment (c : string) : string := "User Code: " ++ c.
Definition instruction_segment (p : string) : string := "Prompt: " ++ p.

(** Some segment of [segs] carries [label]. *)
Definition has_label (label : string) (segs : list string) : bool :=
  existsb (labeled label) segs.

(** The key under which an operation returns the provider's text. *)
Definition reply_key (r : request) : string :=
  if path r =? "/givescore" then "score" else "response".

(** The JSON body of a successful reply to [r] that relays [t]. *)
Definition reply (r : request) (t : string) : dict := [(reply_key r, t)].

(** The question segment, then the code segment, then the instruction, which
    comes last. *)
Definition in_order (q c p : string) (segs : list string) : Prop :=
  Before (question_segment q) (code_segment c) segs
  /\ Before (question_segment q) (instruction_segment p) segs
  /\ Before (code_segment c) (instruction_segment p) segs
  /\ last segs EmptyString = instruction_segment p.

(** Assembly as the specification words it, with "present" read as "the
    field was supplied": a segment for every supplied string, empty or not. *)
Definition segments_when_supplied
  (prompt : string) (code_snippet user_question : option string) : list string :=
  (match user_question with Some q => [question_segment q] | None => [] end
   ++ match code_snippet with Some c => [code_segment c] | None => [] end
   ++ [instruction_segment prompt])%list.

(** Assembly with "present" read as "supplied and not empty". *)
Definition segments_when_nonempty
  (prompt : string) (code_snippet user_question : option string) : list string :=
  ((if truth user_question
    then match user_question with Some q => [question_segment q] | None => [] end
    else [])
   ++ (if truth code_snippet
       then match code_snippet with Some c => [code_segment c] | None => [] end
       else [])
   ++ [instruction_segment prompt])%list.

(** The behaviour the specification describes for every operation: one call
    to the provider with [segments]; its text comes back under [key], its
    error is raised; nothing else happens to the world. *)
Definition one_call {G : GenAI} (key : string) (segments : list string)
  (w : world G) : outcome error dict * world G :=
  let (r, s) := generate_content "gemini-1.5-flash" segments (service w) in
  (match r with
   | Returns resp =>
       match text resp with
       | Returns t => Returns [(key, t)]
       | Raises e => Raises e
       end
   | Raises e => Raises e
   end,
   {| service := s;
      calls := (calls w ++ [("gemini-1.5-flash", segments)])%list |}).

(** An optional argument as the helper reads it: an empty string counts as
    an argument that was not given. *)
Definition given (x : option string) : option string :=
  if truth x then x else None.

(** [seg] starts with one of the three labels the helper writes. *)
Definition known_label (seg : string) : bool :=
  (labeled "Problem/Question: " seg
   || labeled "User Code: " seg
   || labeled "Prompt: " seg)%bool.

(** ** A scripted provider, for running the handlers *)

Inductive script_error : Type :=
| ScriptExhausted
| NoText.

(** The state is the list of the answers still to give; a response is a text
    or a response without text. *)
Definition scripted_generate (name : string) (contents : list string)
  (script : list (outcome script_error (option string)))
  : outcome script_error (option string) * list (outcome script_error (option string)) :=
  match script with
  | [] => (Raises ScriptExhausted, [])
  | r :: rest => (r, rest)
  end.

Definition scripted_text (resp : option string) : outcome script_error string :=
  match resp with
  | Some t => Returns t
  | None => Raises NoText
  end.

#[export] Instance Scripted : GenAI := {|
  error := script_error;
  remote := list (outcome script_error (option string));
  response := option string;
  generate_content := scripted_generate;
  text := scripted_text
|}.

(** A world with the given script and no call made yet. *)
Definition fresh (script : list (outcome script_error (option string)))
  : world Scripted :=
  {| service := script; calls := [] |}.

(** * Properties *)

(** ** Runs of the scripted provider *)

Example analyze_runs :
  analyze_code
    {| problem_statement := "Reverse a linked list";
       code_input := "def rev(h): pass" |}
    (fresh [Returns (Some "Looks unfinished.")])
  = (Returns [("response", "Looks unfinished.")],
     {| service := [];
        calls := [("gemini-1.5-flash",
                   ["Problem/Question: Reverse a linked list";
                    "User Code: def rev(h): pass";
                    "Prompt: " ++ prompt_approach])] |}).
Proof. reflexivity. Qed.

Example givescore_runs :
  give_score {| Score.question := "2+2=?"; Score.answer := "4" |}
    (fresh [Returns (Some "10")])
  = (Returns [("score", "10")],
     {| service := [];
        calls := [("gemini-1.5-flash",
                   ["Prompt: You are an expert evaluator. Evaluate the following answer to the given question on a scale of 0 to 10, where 0 means completely incorrect and 10 means completely correct."
                    ++ LF ++ LF ++ "Question: 2+2=?" ++ LF ++ "Answer: 4"
                    ++ LF ++ LF ++ "Please respond only with the numeric score."])] |}).
Proof. reflexivity. Qed.

Example solve_doubt_fails :
  solve_doubt {| doubt_question := "Why?"; problem_context := "" |}
    (fresh [Raises ScriptExhausted; Returns (Some "never read")])
  = (Raises ScriptExhausted,
     {| service := [Returns (Some "never read")];
        calls := [("gemini-1.5-flash",
                   ["Problem/Question: Why?" ++ LF ++ "Context: ";
                    "Prompt: " ++ prompt_doubt])] |}).
Proof. reflexivity. Qed.

Example edit_without_text :
  fst (edit_code_thinking {| question := "" |} (fresh [Returns None]))
  = Raises NoText.
Proof. reflexivity. Qed.

(** ** Strings and lists *)

Lemma append_assoc (a b c : string) : (a ++ b) ++ c = a ++ b ++ c.
Proof.
  induction a as [|x a IH]; simpl; [reflexivity | now rewrite IH].
Qed.

Lemma str_truth_true (s : string) : str_truth s = true <-> s <> "".
Proof.
  destruct s; simpl; split; intro H; try reflexivity;
    try discriminate; try (exfalso; apply H; reflexivity).
Qed.

Lemma skipn_past {A : Type} (l l' : list A) :
  skipn (length l) (l ++ l')%list = l'.
Proof.
  induction l as [|x l IH]; simpl; [reflexivity | exact IH].
Qed.

Lemma Before_In {A : Type} (x y : A) (l : list A) :
  Before x y l -> In x l /\ In y l.
Proof.
  intros (l1 & l2 & l3 & ->). split.
  - apply in_or_app. right. left. reflexivity.
  - apply in_or_app. right. right. apply in_or_app. right. left. reflexivity.
Qed.

(** ** The helper and the handlers as one call *)

Section Runs.
Context {G : GenAI}.

Lemma get_gemini_response_run prompt code_snippet user_question (w : world G) :
  get_gemini_response prompt code_snippet user_question w
  = (provider_answer (input_data prompt code_snippet user_question) w,
     {| service :=
          snd (generate_content "gemini-1.5-flash"
                 (input_data prompt code_snippet user_question) (service w));
        calls :=
          (calls w ++ [("gemini-1.5-flash",
                        input_data prompt code_snippet user_question)])%list |}).
Proof.
  unfold get_gemini_response, provider_answer, bind, model_generate_content,
    lift, append_item, GenerativeModel; simpl.
  destruct (generate_content _ _ _) as [[resp|e] s]; reflexivity.
Qed.

Lemma relay_one_call key prompt code_snippet user_question (w : world G) :
  (response <- get_gemini_response prompt code_snippet user_question ;;
   ret [(key, response)]) w
  = one_call key (input_data prompt code_snippet user_question) w.
Proof.
  unfold bind at 1. rewrite get_gemini_response_run.
  unfold provider_answer, one_call, ret.
  destruct (generate_content _ _ _) as [[resp|e] s]; simpl;
    [destruct (text resp) |]; reflexivity.
Qed.

Lemma analyze_code_one_call body (w : world G) :
  analyze_code body w
  = one_call "response"
      (input_data prompt_approach (Some (code_input body))
         (Some (problem_statement body))) w.
Proof. apply relay_one_call. Qed.

Lemma solve_doubt_one_call body (w : world G) :
  solve_doubt body w
  = one_call "response"
      (input_data prompt_doubt None (Some (combined_question body))) w.
Proof. apply relay_one_call. Qed.

Lemma edit_one_call body (w : world G) :
  edit_code_thinking body w
  = one_call "response" (input_data prompt_edit None (Some (question body))) w.
Proof. apply relay_one_call. Qed.

Lemma give_score_one_call body (w : world G) :
  give_score body w
  = one_call "score" (input_data (prompt_score body) None None) w.
Proof. apply relay_one_call. Qed.

Lemma one_call_calls key segments (w : world G) :
  calls (snd (one_call key segments w))
  = (calls w ++ [("gemini-1.5-flash", segments)])%list.
Proof.
  unfold one_call. destruct (generate_content _ _ _). reflexivity.
Qed.

Lemma one_call_service key segments (w : world G) :
  service (snd (one_call key segments w))
  = snd (generate_content "gemini-1.5-flash" segments (service w)).
Proof.
  unfold one_call. destruct (generate_content _ _ _). reflexivity.
Qed.

Lemma one_call_result key segments (w : world G) :
  fst (one_call key segments w)
  = match provider_answer segments w with
    | Returns t => Returns [(key, t)]
    | Raises e => Raises e
    end.
Proof.
  unfold one_call, provider_answer.
  destruct (generate_content _ _ _) as [[resp|e] s]; reflexivity.
Qed.

Lemma prompts_analyze body (w : world G) :
  prompts (PostAnalyze body) w
  = [input_data prompt_approach (Some (code_input body))
       (Some (problem_statement body))].
Proof.
  unfold prompts, outbound; simpl.
  rewrite analyze_code_one_call, one_call_calls, skipn_past. reflexivity.
Qed.

Lemma prompts_solve_doubt body (w : world G) :
  prompts (PostSolveDoubt body) w
  = [input_data prompt_doubt None (Some (combined_question body))].
Proof.
  unfold prompts, outbound; simpl.
  rewrite solve_doubt_one_call, one_call_calls, skipn_past. reflexivity.
Qed.

Lemma prompts_edit body (w : world G) :
  prompts (PostEdit body) w
  = [input_data prompt_edit None (Some (question body))].
Proof.
  unfold prompts, outbound; simpl.
  rewrite edit_one_call, one_call_calls, skipn_past. reflexivity.
Qed.

Lemma prompts_give_score body (w : world G) :
  prompts (PostGiveScore body) w = [input_data (prompt_score body) None None].
Proof.
  unfold prompts, outbound; simpl.
  rewrite give_score_one_call, one_call_calls, skipn_past. reflexivity.
Qed.

End Runs.

(** ** Prompt assembly *)

Lemma input_data_nonempty_form prompt code_snippet user_question :
  input_data prompt code_snippet user_question
  = segments_when_nonempty prompt code_snippet user_question.
Proof.
  destruct user_question as [[|a q]|], code_snippet as [[|b c]|]; reflexivity.
Qed.

Lemma input_data_last prompt code_snippet user_question :
  last (input_data prompt code_snippet user_question) ""
  = instruction_segment prompt.
Proof.
  destruct user_question as [[|a q]|], code_snippet as [[|b c]|]; reflexivity.
Qed.

Lemma input_data_both prompt c q :
  q <> "" -> c <> "" ->
  input_data prompt (Some c) (Some q)
  = [question_segment q; code_segment c; instruction_segment prompt].
Proof.
  intros Hq Hc. unfold input_data.
  apply str_truth_true in Hq, Hc. rewrite Hq, Hc. reflexivity.
Qed.

Lemma combined_question_truth body : str_truth (combined_question body) = true.
Proof.
  unfold combined_question. destruct (doubt_question body); reflexivity.
Qed.

Lemma combined_question_assoc body :
  combined_question body
  = doubt_question body ++ (LF ++ "Context: ") ++ problem_context body.
Proof. unfold combined_question. apply append_assoc. Qed.

Lemma input_data_solve_doubt body :
  input_data prompt_doubt None (Some (combined_question body))
  = [question_segment (combined_question body); instruction_segment prompt_doubt].
Proof.
  unfold input_data. rewrite combined_question_truth. reflexivity.
Qed.

Lemma input_data_edit body :
  input_data prompt_edit None (Some (question body))
  = if str_truth (question body)
    then [question_segment (question body); instruction_segment prompt_edit]
    else [instruction_segment prompt_edit].
Proof.
  unfold input_data. destruct (str_truth (question body)); reflexivity.
Qed.

Lemma different_label (label a b : string) :
  labeled label a <> labeled label b -> a <> b.
Proof. intros H E. apply H. now rewrite E. Qed.

(** C1, as amended.  When the problem statement and the code of an /analyze
    request are both non-empty, the one prompt sent to the provider is the
    question segment, the code segment and the instruction, in that order,
    and nothing else: question before code, both before the instruction,
    the instruction last. *)
Theorem analyze_segments_in_order {G : GenAI} (body : ApproachRequest) (w : world G) :
  problem_statement body <> "" ->
  code_input body <> "" ->
  prompts (PostAnalyze body) w
  = [[question_segment (problem_statement body);
      code_segment (code_input body);
      instruction_segment prompt_approach]]
  /\ in_order (problem_statement body) (code_input body) prompt_approach
       [question_segment (problem_statement body);
        code_segment (code_input body);
        instruction_segment prompt_approach].
Proof.
  intros Hq Hc. split.
  - rewrite prompts_analyze, input_data_both by assumption. reflexivity.
  - repeat split.
    + exists [], [], [instruction_segment prompt_approach]. reflexivity.
    + exists [], [code_segment (code_input body)], []. reflexivity.
    + exists [question_segment (problem_statement body)], [], []. reflexivity.
Qed.

Lemma analyze_segments_in_order_witness :
  prompts
    (PostAnalyze {| problem_statement := "Reverse a linked list";
                    code_input := "def rev(h): pass" |})
    (fresh [Returns (Some "Looks unfinished.")])
  = [["Problem/Question: Reverse a linked list";
      "User Code: def rev(h): pass";
      "Prompt: " ++ prompt_approach]].
Proof.
  apply (analyze_segments_in_order
           {| problem_statement := "Reverse a linked list";
              code_input := "def rev(h): pass" |}
           (fresh [Returns (Some "Looks unfinished.")])); simpl; discriminate.
Defined.

(** C1 as the specification states it fails: an /analyze request that supplies
    the empty string as its problem statement is sent without any question
    segment. *)
Lemma analyze_empty_statement_has_no_question :
  exists segs : list string,
    prompts
      (PostAnalyze {| problem_statement := ""; code_input := "def rev(h): pass" |})
      (fresh [Returns (Some "Looks unfinished.")])
    = [segs]
    /\ ~ in_order "" "def rev(h): pass" prompt_approach segs.
Proof.
  eexists. split; [reflexivity |].
  intros (H & _). apply Before_In in H. destruct H as [H _].
  simpl in H. destruct H as [H | [H | []]]; revert H.
  - apply (different_label "U"). vm_compute. discriminate.
  - apply (different_label "Prom"). vm_compute. discriminate.
Qed.

(** C2.  The one prompt of a /solve_doubt, /edit or /givescore request has no
    segment that carries the label "User Code:", whatever the strings of the
    request are. *)
Theorem no_code_segment_without_code_field {G : GenAI} (w : world G) :
  (forall body, exists segs,
      prompts (PostSolveDoubt body) w = [segs]
      /\ has_label "User Code:" segs = false)
  /\ (forall body, exists segs,
         prompts (PostEdit body) w = [segs]
         /\ has_label "User Code:" segs = false)
  /\ (forall body, exists segs,
         prompts (PostGiveScore body) w = [segs]
         /\ has_label "User Code:" segs = false).
Proof.
  repeat split; intro body; eexists; (split; [|shelve]).
  - apply prompts_solve_doubt.
  - apply prompts_edit.
  - apply prompts_give_score.
  Unshelve.
  + rewrite input_data_solve_doubt. reflexivity.
  + rewrite input_data_edit. destruct (str_truth (question body)); reflexivity.
  + reflexivity.
Qed.

(** C3.  The question that /solve_doubt passes to prompt assembly is
    [doubt_question], then a line feed and "Context: ", then
    [problem_context], for all values of the two fields; it is never empty,
    so it always heads the prompt that is sent. *)
Theorem solve_doubt_combined_question {G : GenAI} (body : DoubtRequest) (w : world G) :
  solve_doubt body
  = (response <- get_gemini_response prompt_doubt None
                   (Some (combined_question body)) ;;
     ret [("response", response)])
  /\ combined_question body
     = doubt_question body ++ (LF ++ "Context: ") ++ problem_context body
  /\ prompts (PostSolveDoubt body) w
     = [["Problem/Question: "
         ++ doubt_question body ++ (LF ++ "Context: ") ++ problem_context body;
         "Prompt: " ++ prompt_doubt]].
Proof.
  split; [reflexivity |]. split; [apply combined_question_assoc |].
  rewrite prompts_solve_doubt, input_data_solve_doubt, combined_question_assoc.
  reflexivity.
Qed.

(** C4.  The one segment of a /givescore prompt contains the question and the
    answer of the request as they are, and the sentence that asks for the
    numeric score alone. *)
Theorem give_score_prompt_embeds {G : GenAI} (body : Score.ScoreRequest) (w : world G) :
  exists seg : string,
    prompts (PostGiveScore body) w = [[seg]]
    /\ Substring (Score.question body) seg
    /\ Substring (Score.answer body) seg
    /\ Substring "Please respond only with the numeric score." seg.
Proof.
  exists (instruction_segment (prompt_score body)).
  split; [apply prompts_give_score |].
  unfold instruction_segment, prompt_score. repeat split.
  - exists ("Prompt: "
            ++ "You are an expert evaluator. Evaluate the following answer to the given question on a scale of 0 to 10, "
            ++ "where 0 means completely incorrect and 10 means completely correct."
            ++ LF ++ LF ++ "Question: ").
    eexists. reflexivity.
  - exists ("Prompt: "
            ++ "You are an expert evaluator. Evaluate the following answer to the given question on a scale of 0 to 10, "
            ++ "where 0 means completely incorrect and 10 means completely correct."
            ++ LF ++ LF ++ "Question: " ++ Score.question body ++ LF ++ "Answer: ").
    eexists. rewrite !append_assoc. reflexivity.
  - exists ("Prompt: "
            ++ "You are an expert evaluator. Evaluate the following answer to the given question on a scale of 0 to 10, "
            ++ "where 0 means completely incorrect and 10 means completely correct."
            ++ LF ++ LF ++ "Question: " ++ Score.question body ++ LF
            ++ "Answer: " ++ Score.answer body ++ LF ++ LF).
    exists "". rewrite !append_assoc. reflexivity.
Qed.

(** C5, as amended.  Assembly is the same for every call and every
    operation: a "Problem/Question: " segment first when the question is
    supplied and not empty, a "User Code: " segment after it when the code is
    supplied and not empty, the "Prompt: " segment always and always last.  A
    string that is absent or empty gives no segment. *)
Theorem assembly_is_uniform {G : GenAI} (w : world G) :
  (forall prompt code_snippet user_question,
      input_data prompt code_snippet user_question
      = segments_when_nonempty prompt code_snippet user_question
      /\ last (input_data prompt code_snippet user_question) ""
         = instruction_segment prompt)
  /\ (forall body,
         prompts (PostAnalyze body) w
         = [segments_when_nonempty prompt_approach
              (Some (code_input body)) (Some (problem_statement body))])
  /\ (forall body,
         prompts (PostSolveDoubt body) w
         = [segments_when_nonempty prompt_doubt None
              (Some (combined_question body))])
  /\ (forall body,
         prompts (PostEdit body) w
         = [segments_when_nonempty prompt_edit None (Some (question body))])
  /\ (forall body,
         prompts (PostGiveScore body) w
         = [segments_when_nonempty (prompt_score body) None None]).
Proof.
  repeat split; intros.
  - apply input_data_nonempty_form.
  - apply input_data_last.
  - rewrite prompts_analyze, input_data_nonempty_form. reflexivity.
  - rewrite prompts_solve_doubt, input_data_nonempty_form. reflexivity.
  - rewrite prompts_edit, input_data_nonempty_form. reflexivity.
  - rewrite prompts_give_score, input_data_nonempty_form. reflexivity.
Qed.

(** C5 as the specification states it fails on empty strings: the question
    of an /edit request is supplied, and when it is the empty string the
    prompt has the instruction alone, not a "Problem/Question: " segment
    before it. *)
Lemma edit_empty_question_is_not_prepended :
  prompts (PostEdit {| question := "" |}) (fresh [Returns (Some "Think.")])
  = [[instruction_segment prompt_edit]]
  /\ segments_when_supplied prompt_edit None (Some "")
     = [question_segment ""; instruction_segment prompt_edit]
  /\ prompts (PostEdit {| question := "" |}) (fresh [Returns (Some "Think.")])
     <> [segments_when_supplied prompt_edit None (Some "")].
Proof.
  split; [reflexivity |]. split; [reflexivity |].
  intro H. apply (f_equal (map (@length string))) in H.
  vm_compute in H. discriminate H.
Qed.

(** ** One request, one call *)

Lemma handle_one_call {G : GenAI} (r : request) :
  exists segs : list string,
    forall w : world G, handle r w = one_call (reply_key r) segs w.
Proof.
  destruct r as [body | body | body | body]; eexists; intro w; simpl.
  - apply analyze_code_one_call.
  - apply solve_doubt_one_call.
  - apply edit_one_call.
  - apply give_score_one_call.
Qed.

Lemma one_call_outbound {G : GenAI} (r : request) key segs (w : world G) :
  handle r w = one_call key segs w ->
  outbound r w = [("gemini-1.5-flash", segs)].
Proof.
  intro H. unfold outbound. rewrite H, one_call_calls, skipn_past. reflexivity.
Qed.

(** C6.  Handling a request assembles one prompt, which depends on the request
    alone, and calls the provider once with it: the log of calls grows by
    that one entry, and the handler ends as that call ends.  Nothing is kept
    from one request to the next: handling the same request again calls the
    provider again. *)
Theorem one_prompt_one_call {G : GenAI} (r : request) :
  exists segs : list string,
    forall w : world G,
      handle r w = one_call (reply_key r) segs w
      /\ outbound r w = [("gemini-1.5-flash", segs)]
      /\ prompts r w = [segs]
      /\ calls (snd (handle r w)) = (calls w ++ outbound r w)%list
      /\ outbound r (snd (handle r w)) = outbound r w.
Proof.
  destruct (handle_one_call r) as [segs H]. exists segs. intro w.
  pose proof (one_call_outbound r _ _ w (H w)) as Ho.
  split; [apply H |]. split; [exact Ho |].
  split; [unfold prompts; rewrite Ho; reflexivity |].
  split.
  - rewrite Ho, H. apply one_call_calls.
  - rewrite Ho. apply (one_call_outbound r (reply_key r)). apply H.
Qed.

(** C7.  Whatever the request, the handler ends as the provider's one call
    ends: an error of the call, or of reading the text of its response, is
    raised by the handler as it is, and the handler returns a body if and
    only if the provider gave a text.  Failing or not, there was one call,
    and the provider is left as that call left it. *)
Theorem provider_failure_propagates {G : GenAI} (r : request) (w : world G) :
  exists segs : list string,
    prompts r w = [segs]
    /\ (forall e, provider_answer segs w = Raises e ->
                  fst (handle r w) = Raises e)
    /\ (forall t, provider_answer segs w = Returns t ->
                  fst (handle r w) = Returns (reply r t))
    /\ ((exists d, fst (handle r w) = Returns d)
        <-> (exists t, provider_answer segs w = Returns t))
    /\ length (outbound r w) = 1
    /\ service (snd (handle r w))
       = snd (generate_content "gemini-1.5-flash" segs (service w)).
Proof.
  destruct (handle_one_call r) as [segs H]. exists segs.
  pose proof (one_call_outbound r _ _ w (H w)) as Ho.
  pose proof (one_call_result (reply_key r) segs w) as Hr.
  rewrite <- H in Hr.
  split; [unfold prompts; rewrite Ho; reflexivity |].
  split; [intros e He; rewrite Hr, He; reflexivity |].
  split; [intros t Ht; rewrite Hr, Ht; reflexivity |].
  split; [| split].
  - rewrite Hr. destruct (provider_answer segs w) as [t | e]; split.
    + intros _. exists t. reflexivity.
    + intros _. eexists. reflexivity.
    + intros [d Hd]. discriminate Hd.
    + intros [t Ht]. discriminate Ht.
  - rewrite Ho. reflexivity.
  - rewrite H. apply one_call_service.
Qed.

Lemma provider_failure_propagates_witness :
  fst (handle
         (PostSolveDoubt {| doubt_question := "Why?"; problem_context := "" |})
         (fresh [Raises ScriptExhausted; Returns (Some "never read")]))
  = Raises ScriptExhausted.
Proof.
  destruct (provider_failure_propagates
              (PostSolveDoubt {| doubt_question := "Why?"; problem_context := "" |})
              (fresh [Raises ScriptExhausted; Returns (Some "never read")]))
    as (segs & Hp & Hfail & _).
  apply Hfail. injection Hp as <-. reflexivity.
Defined.

(** C8.  When a handler returns, its body is the provider's text under one
    key and nothing else: "response" for /analyze, /solve_doubt and /edit,
    "score" for /givescore. *)
Theorem provider_text_is_relayed {G : GenAI} (r : request) (w : world G) (d : dict) :
  fst (handle r w) = Returns d ->
  exists (segs : list string) (t : string),
    prompts r w = [segs]
    /\ provider_answer segs w = Returns t
    /\ d = match r with
           | PostGiveScore _ => [("score", t)]
           | _ => [("response", t)]
           end.
Proof.
  intro Hd. destruct (handle_one_call r) as [segs H]. exists segs.
  pose proof (one_call_outbound r _ _ w (H w)) as Ho.
  pose proof (one_call_result (reply_key r) segs w) as Hr.
  rewrite <- H, Hd in Hr.
  destruct (provider_answer segs w) as [t | e]; [| discriminate Hr].
  exists t. split; [unfold prompts; rewrite Ho; reflexivity |].
  split; [reflexivity |].
  injection Hr as ->. destruct r; reflexivity.
Qed.

Lemma provider_text_is_relayed_witness :
  exists (segs : list string) (t : string),
    prompts (PostGiveScore {| Score.question := "2+2=?"; Score.answer := "4" |})
      (fresh [Returns (Some "10")]) = [segs]
    /\ provider_answer segs (fresh [Returns (Some "10")]) = Returns t
    /\ [("score", "10")] = [("score", t)].
Proof.
  apply (provider_text_is_relayed
           (PostGiveScore {| Score.question := "2+2=?"; Score.answer := "4" |})
           (fresh [Returns (Some "10")]) [("score", "10")]).
  reflexivity.
Defined.

(** C9.  An empty string is accepted and handled as an argument that was not
    given: the helper builds the same segments for [Some ""] as for [None];
    an /analyze request with empty code is sent without a "User Code:"
    segment, one with an empty problem statement, or an /edit request with
    an empty question, without a "Problem/Question:" segment, and the
    provider is called all the same. *)
Theorem empty_string_is_omitted {G : GenAI} (w : world G) :
  (forall prompt user_question,
      input_data prompt (Some "") user_question
      = input_data prompt None user_question)
  /\ (forall prompt code_snippet,
         input_data prompt code_snippet (Some "")
         = input_data prompt code_snippet None)
  /\ (forall statement, exists segs,
         handle (PostAnalyze {| problem_statement := statement; code_input := "" |}) w
         = one_call "response" segs w
         /\ prompts (PostAnalyze {| problem_statement := statement;
                                    code_input := "" |}) w = [segs]
         /\ has_label "User Code:" segs = false)
  /\ (forall code, exists segs,
         handle (PostAnalyze {| problem_statement := ""; code_input := code |}) w
         = one_call "response" segs w
         /\ prompts (PostAnalyze {| problem_statement := "";
                                    code_input := code |}) w = [segs]
         /\ has_label "Problem/Question:" segs = false)
  /\ handle (PostEdit {| question := "" |}) w
     = one_call "response" [instruction_segment prompt_edit] w
  /\ prompts (PostEdit {| question := "" |}) w
     = [[instruction_segment prompt_edit]].
Proof.
  split; [reflexivity |]. split; [reflexivity |].
  split; [| split; [| split]].
  - intro x. eexists. split; [apply analyze_code_one_call |].
    split; [apply prompts_analyze |]. destruct x; reflexivity.
  - intro x. eexists. split; [apply analyze_code_one_call |].
    split; [apply prompts_analyze |]. destruct x; reflexivity.
  - apply edit_one_call.
  - apply prompts_edit.
Qed.

Lemma prompt_score_literal (body : Score.ScoreRequest) :
  "Prompt: " ++ prompt_score body
  = "Prompt: You are an expert evaluator. Evaluate the following answer to the given question on a scale of 0 to 10, where 0 means completely incorrect and 10 means completely correct."
    ++ LF ++ LF ++ "Question: " ++ Score.question body
    ++ LF ++ "Answer: " ++ Score.answer body
    ++ LF ++ LF ++ "Please respond only with the numeric score.".
Proof. reflexivity. Qed.

(** C10.  The prompt of a /givescore request is one segment: "Prompt: ",
    the scoring instruction, "Question: " and the question of the request
    as it is, "Answer: " and its answer as it is, and the sentence that asks
    for the numeric score alone.  It is the segment the handler builds from
    [prompt_score]; the question and the answer both occur in it, and no
    segment carries the label "Problem/Question:". *)
Theorem give_score_single_segment {G : GenAI} (body : Score.ScoreRequest) (w : world G) :
  prompts (PostGiveScore body) w
  = [["Prompt: You are an expert evaluator. Evaluate the following answer to the given question on a scale of 0 to 10, where 0 means completely incorrect and 10 means completely correct."
      ++ LF ++ LF ++ "Question: " ++ Score.question body
      ++ LF ++ "Answer: " ++ Score.answer body
      ++ LF ++ LF ++ "Please respond only with the numeric score."]]
  /\ prompts (PostGiveScore body) w = [["Prompt: " ++ prompt_score body]]
  /\ (exists seg : string,
         prompts (PostGiveScore body) w = [[seg]]
         /\ labeled "Prompt: " seg = true
         /\ Substring ("Question: " ++ Score.question body ++ LF) seg
         /\ Substring ("Answer: " ++ Score.answer body ++ LF) seg)
  /\ map (@length string) (prompts (PostGiveScore body) w) = [1]
  /\ map (has_label "Problem/Question:") (prompts (PostGiveScore body) w)
     = [false].
Proof.
  rewrite prompts_give_score.
  change (input_data (prompt_score body) None None)
    with ["Prompt: " ++ prompt_score body].
  rewrite prompt_score_literal.
  split; [reflexivity |]. split; [reflexivity |]. split; [| split; reflexivity].
  eexists. split; [reflexivity |]. split; [reflexivity |]. split.
  - exists ("Prompt: You are an expert evaluator. Evaluate the following answer to the given question on a scale of 0 to 10, where 0 means completely incorrect and 10 means completely correct."
            ++ LF ++ LF).
    eexists. rewrite !append_assoc. reflexivity.
  - exists ("Prompt: You are an expert evaluator. Evaluate the following answer to the given question on a scale of 0 to 10, where 0 means completely incorrect and 10 means completely correct."
            ++ LF ++ LF ++ "Question: " ++ Score.question body ++ LF).
    eexists. rewrite !append_assoc. reflexivity.
Qed.


(** * Further properties of the helper and the handlers *)

(** ** What the segments tell about the arguments *)

Lemma length_append (a b : string) :
  String.length (a ++ b) = String.length a + String.length b.
Proof.
  induction a as [|x a IH]; simpl; [reflexivity | now rewrite IH].
Qed.

Lemma append_longer (a b : string) : a <> "" -> b <> a ++ b.
Proof.
  intros Ha E. apply (f_equal String.length) in E.
  rewrite length_append in E. destruct a as [|x a]; [now apply Ha |].
  simpl in E. clear Ha. revert E. generalize (String.length a). intros n E.
  assert (H : forall m k, m <> S (k + m)).
  { induction m as [|m IHm]; intros k; [discriminate |].
    rewrite <- plus_n_Sm. intro H. injection H as H. now apply (IHm k). }
  exact (H _ _ E).
Qed.

Lemma input_data_inj prompt code_snippet user_question
  prompt' code_snippet' user_question' :
  input_data prompt code_snippet user_question
  = input_data prompt' code_snippet' user_question' ->
  prompt = prompt'
  /\ given code_snippet = given code_snippet'
  /\ given user_question = given user_question'.
Proof.
  destruct user_question as [[|a q]|], code_snippet as [[|b c]|],
    user_question' as [[|a' q']|], code_snippet' as [[|b' c']|];
    cbn; intro H; try discriminate H;
    injection H as <-; subst; repeat split.
Qed.

Lemma given_Some_inj (a b : string) : given (Some a) = given (Some b) -> a = b.
Proof.
  destruct a, b; cbn; intro H; try discriminate H; [reflexivity |].
  now injection H as -> ->.
Qed.

Ltac expose_prompts H :=
  repeat first [ rewrite prompts_analyze in H
               | rewrite prompts_solve_doubt in H
               | rewrite prompts_edit in H
               | rewrite prompts_give_score in H ].

Ltac other_instruction :=
  first [ apply (different_label "You are an"); vm_compute; discriminate
        | apply (different_label "You are an expert c"); vm_compute; discriminate
        | apply (different_label "You are E"); vm_compute; discriminate ].

Lemma prompts_same_path {G : GenAI} (r r' : request) (w w' : world G) :
  prompts r w = prompts r' w' -> path r = path r'.
Proof.
  intro H. destruct r, r'; try reflexivity; exfalso; expose_prompts H;
    injection H as H; apply input_data_inj in H; destruct H as [H _];
    revert H; other_instruction.
Qed.

(** X1.  The segments determine the arguments of the helper, an empty string
    counting as an argument that was not given: two calls that send the same
    segments had the same prompt, the same code and the same question. *)
Theorem segments_determine_arguments
  (prompt prompt' : string) (code_snippet code_snippet' : option string)
  (user_question user_question' : option string) :
  input_data prompt code_snippet user_question
  = input_data prompt' code_snippet' user_question' ->
  prompt = prompt'
  /\ given code_snippet = given code_snippet'
  /\ given user_question = given user_question'.
Proof. apply input_data_inj. Qed.

Lemma segments_determine_arguments_witness :
  "Explain." = "Explain."
  /\ given (Some "") = given None
  /\ given (Some "Why?") = given (Some "Why?").
Proof.
  apply (segments_determine_arguments "Explain." "Explain."
           (Some "") None (Some "Why?") (Some "Why?")).
  reflexivity.
Defined.

(** X2.  Every prompt shows which operation it comes from: two requests that
    send the same prompt, whatever their strings and whatever the state of
    the provider, are requests to the same path. *)
Theorem prompt_determines_operation {G : GenAI} (r r' : request) (w w' : world G) :
  prompts r w = prompts r' w' -> path r = path r'.
Proof. apply prompts_same_path. Qed.

Lemma prompt_determines_operation_witness :
  path (PostEdit {| question := "" |}) = path (PostEdit {| question := "" |}).
Proof.
  apply (prompt_determines_operation
           (PostEdit {| question := "" |}) (PostEdit {| question := "" |})
           (fresh []) (fresh [Returns (Some "Think.")])).
  reflexivity.
Defined.

(** X3.  An /analyze or /edit request can be read back from its prompt: a
    request that sends the same prompt as one of these is the same request,
    empty fields included. *)
Theorem analyze_and_edit_are_read_back {G : GenAI} (r r' : request) (w w' : world G) :
  path r = "/analyze" \/ path r = "/edit" ->
  prompts r w = prompts r' w' ->
  r = r'.
Proof.
  intros Hr H. pose proof (prompts_same_path r r' w w' H) as Hp.
  destruct r as [b | b | b | b], r' as [b' | b' | b' | b'];
    try discriminate Hp; try (destruct Hr as [Hr | Hr]; discriminate Hr).
  - expose_prompts H. injection H as H. apply input_data_inj in H.
    destruct H as (_ & Hc & Hq).
    apply given_Some_inj in Hc, Hq. destruct b, b'; simpl in *.
    now subst.
  - expose_prompts H. injection H as H. apply input_data_inj in H.
    destruct H as (_ & _ & Hq).
    apply given_Some_inj in Hq. destruct b, b'; simpl in *.
    now subst.
Qed.

Lemma analyze_and_edit_are_read_back_witness :
  PostAnalyze {| problem_statement := ""; code_input := "pass" |}
  = PostAnalyze {| problem_statement := ""; code_input := "pass" |}.
Proof.
  apply (analyze_and_edit_are_read_back
           (PostAnalyze {| problem_statement := ""; code_input := "pass" |})
           (PostAnalyze {| problem_statement := ""; code_input := "pass" |})
           (fresh []) (fresh [Raises NoText])).
  - left. reflexivity.
  - reflexivity.
Defined.

(** X4.  A /solve_doubt request cannot be read back from its prompt: the two
    fields are joined by a line feed and "Context: ", so a question that
    already contains this mark moves the border.  For all strings [a], [b]
    and [c], the request with question [a], mark, [b] and context [c], and
    the request with question [a] and context [b], mark, [c], are different
    requests that send the same prompt and are handled alike. *)
Theorem solve_doubt_border_moves {G : GenAI} (a b c : string) (w : world G) :
  let r1 := {| doubt_question := a ++ (LF ++ "Context: ") ++ b;
               problem_context := c |} in
  let r2 := {| doubt_question := a;
               problem_context := b ++ (LF ++ "Context: ") ++ c |} in
  r1 <> r2
  /\ combined_question r1 = combined_question r2
  /\ prompts (PostSolveDoubt r1) w = prompts (PostSolveDoubt r2) w
  /\ handle (PostSolveDoubt r1) w = handle (PostSolveDoubt r2) w.
Proof.
  intros r1 r2.
  assert (E : combined_question r1 = combined_question r2).
  { unfold combined_question, r1, r2; simpl doubt_question; simpl problem_context.
    rewrite !append_assoc. reflexivity. }
  split; [| split; [exact E |]].
  - assert (N : c <> b ++ (LF ++ "Context: ") ++ c).
    { rewrite <- append_assoc. apply append_longer. destruct b; discriminate. }
    intro H. apply N. exact (f_equal problem_context H).
  - split.
    + rewrite !prompts_solve_doubt, E. reflexivity.
    + simpl. rewrite !solve_doubt_one_call, E. reflexivity.
Qed.

(** X5.  A /givescore request cannot be read back from its prompt either:
    question and answer are joined by a line feed and "Answer: ", so for all
    strings [a], [b] and [c] the request with question [a], mark, [b] and
    answer [c], and the request with question [a] and answer [b], mark, [c],
    are different requests with the same scoring prompt, handled alike. *)
Theorem give_score_border_moves {G : GenAI} (a b c : string) (w : world G) :
  let r1 := {| Score.question := a ++ (LF ++ "Answer: ") ++ b;
               Score.answer := c |} in
  let r2 := {| Score.question := a;
               Score.answer := b ++ (LF ++ "Answer: ") ++ c |} in
  r1 <> r2
  /\ prompt_score r1 = prompt_score r2
  /\ prompts (PostGiveScore r1) w = prompts (PostGiveScore r2) w
  /\ handle (PostGiveScore r1) w = handle (PostGiveScore r2) w.
Proof.
  intros r1 r2.
  assert (E : prompt_score r1 = prompt_score r2).
  { unfold prompt_score, r1, r2; simpl Score.question; simpl Score.answer.
    do 5 f_equal. rewrite !append_assoc. reflexivity. }
  split; [| split; [exact E |]].
  - assert (N : c <> b ++ (LF ++ "Answer: ") ++ c).
    { rewrite <- append_assoc. apply append_longer. destruct b; discriminate. }
    intro H. apply N. exact (f_equal Score.answer H).
  - split.
    + rewrite !prompts_give_score, E. reflexivity.
    + simpl. rewrite !give_score_one_call, E. reflexivity.
Qed.

(** ** What the provider is never sent *)

Lemma input_data_well_formed prompt code_snippet user_question :
  length (input_data prompt code_snippet user_question)
  = 1 + (if truth user_question then 1 else 0)
      + (if truth code_snippet then 1 else 0)
  /\ forallb known_label (input_data prompt code_snippet user_question) = true
  /\ forallb str_truth (input_data prompt code_snippet user_question) = true.
Proof.
  destruct user_question as [[|a q]|], code_snippet as [[|b c]|],
    prompt as [|x p]; (split; [reflexivity | split; reflexivity]).
Qed.

(** X6.  The provider is never sent an empty list, an empty segment or a
    segment without a label, whatever the strings of the request, empty ones
    included: every prompt has one segment for the instruction and one more
    for each non-empty argument, three at most, each of them starting with
    "Problem/Question: ", "User Code: " or "Prompt: ". *)
Theorem segments_are_labelled {G : GenAI} :
  (forall prompt code_snippet user_question,
      length (input_data prompt code_snippet user_question)
      = 1 + (if truth user_question then 1 else 0)
          + (if truth code_snippet then 1 else 0)
      /\ forallb known_label (input_data prompt code_snippet user_question) = true
      /\ forallb str_truth (input_data prompt code_snippet user_question) = true)
  /\ (forall (r : request) (w : world G), exists segs : list string,
         prompts r w = [segs]
         /\ 1 <= length segs <= 3
         /\ forallb known_label segs = true
         /\ forallb str_truth segs = true).
Proof.
  split; [apply input_data_well_formed |].
  intros r w.
  assert (H : exists p c q, prompts r w = [input_data p c q]).
  { destruct r as [b | b | b | b]; do 3 eexists.
    - apply prompts_analyze.
    - apply prompts_solve_doubt.
    - apply prompts_edit.
    - apply prompts_give_score. }
  destruct H as (p & c & q & H). eexists. split; [exact H |].
  destruct (input_data_well_formed p c q) as (Hl & Hk & Hn).
  split; [| split; assumption].
  rewrite Hl. destruct (truth q), (truth c); simpl; repeat constructor.
Qed.

(** ** From one request to the next *)

(** X7.  The prompt is all that reaches the provider and all that shapes the
    reply: two requests that send the same prompt are handled alike from
    every state of the world, with the same call, the same outcome and the
    same reply body. *)
Theorem same_prompt_same_handling {G : GenAI} (r r' : request) (w w' : world G) :
  prompts r w = prompts r' w' ->
  forall w0 : world G, handle r w0 = handle r' w0.
Proof.
  intros H w0. pose proof (prompts_same_path r r' w w' H) as Hp.
  destruct (handle_one_call r) as [segs Hs].
  destruct (handle_one_call r') as [segs' Hs'].
  pose proof (one_call_outbound r _ _ w (Hs w)) as Ho.
  pose proof (one_call_outbound r' _ _ w' (Hs' w')) as Ho'.
  unfold prompts in H. rewrite Ho, Ho' in H. injection H as ->.
  rewrite Hs, Hs'. unfold reply_key. rewrite Hp. reflexivity.
Qed.

Lemma same_prompt_same_handling_witness :
  handle
    (PostSolveDoubt {| doubt_question := "a" ++ LF ++ "Context: b";
                       problem_context := "c" |})
    (fresh [Returns (Some "Because.")])
  = handle
      (PostSolveDoubt {| doubt_question := "a";
                         problem_context := "b" ++ LF ++ "Context: c" |})
      (fresh [Returns (Some "Because.")]).
Proof.
  apply (same_prompt_same_handling
           (PostSolveDoubt {| doubt_question := "a" ++ LF ++ "Context: b";
                              problem_context := "c" |})
           (PostSolveDoubt {| doubt_question := "a";
                              problem_context := "b" ++ LF ++ "Context: c" |})
           (fresh []) (fresh [])).
  reflexivity.
Defined.

(** X8.  Nothing of a request is carried into the next one.  Whatever was
    handled before, and whether it returned or raised, the next request sends
    the prompt it would have sent on its own; after two requests the log has
    the call of the first and then the call of the second, and no other. *)
Theorem no_memory_between_requests {G : GenAI} (r1 r2 : request) (w : world G) :
  outbound r2 (snd (handle r1 w)) = outbound r2 w
  /\ calls (snd (handle r2 (snd (handle r1 w))))
     = (calls w ++ outbound r1 w ++ outbound r2 w)%list.
Proof.
  destruct (handle_one_call r1) as [segs1 H1].
  destruct (handle_one_call r2) as [segs2 H2].
  pose proof (one_call_outbound r1 _ _ w (H1 w)) as Ho1.
  pose proof (one_call_outbound r2 _ _ w (H2 w)) as Ho2.
  pose proof (one_call_outbound r2 _ _ (snd (handle r1 w)) (H2 _)) as Ho2'.
  split; [now rewrite Ho2, Ho2' |].
  rewrite Ho1, Ho2, H2, one_call_calls, H1, one_call_calls.
  rewrite <- app_assoc. reflexivity.
Qed.
